(** * ts-cli: the code generator of [src/render.ts]

    A shallow embedding of the AST assembly engine of ts-cli, the generator
    that turns the description of a function's signature (a
    [TransformResult]) into the syntax tree of a yargs command-line entry
    point, and the properties of it that the specification states.

    The TypeScript compiler API ([ts.create*]) is an external library: its
    nodes are modelled as a free term algebra, one constructor per node kind
    that [render.ts] builds.  TypeScript's static types are erased at run
    time, so a slot holds whatever node the code stores in it: the [name] of
    a property access is a node, not necessarily an identifier.  The
    precedence parentheses that the factory functions add around operands
    that are not left-hand-side expressions are the node library's own
    concern and are not modelled. *)

From Stdlib Require Import List String Bool Arith Lia.
Import ListNotations.
Open Scope string_scope.
Open Scope list_scope.

Set Warnings "-register-all".

(** ** Syntax nodes *)

Module ts.

Inductive SyntaxKind : Type :=
| ExportKeyword | DefaultKeyword | AsyncKeyword
| VoidKeyword | StringKeyword
| DotDotDotToken | EqualsGreaterThanToken.

Inductive NodeFlags : Type := Const.

(** The value [undefined], for the factory parameters that [render.ts]
    leaves undefined at every call site; the nodes do not record them. *)
Inductive Undefined : Type := undefined.

Inductive Node : Type :=
| Identifier (text : string)
| StringLiteral (text : string)
| NumericLiteral (text : string)
| CallExpression (expression : Node) (typeArguments : option (list Node))
                 (arguments : list Node)
| PropertyAccessExpression (expression : Node) (name : Node)
| ArrayLiteralExpression (elements : list Node) (multiLine : bool)
| ArrowFunction (parameters : list Node) (equalsGreaterThanToken : Node)
                (body : Node)
| Token (kind : SyntaxKind)
| Modifier (kind : SyntaxKind)
| KeywordTypeNode (kind : SyntaxKind)
| TypeReferenceNode (typeName : Node) (typeArguments : list Node)
| ArrayTypeNode (elementType : Node)
| ParameterDeclaration (name : Node) (type : option Node)
                       (initializer : option Node)
| Block (statements : list Node) (multiLine : bool)
| ReturnStatement (expression : Node)
| ExpressionStatement (expression : Node)
| BindingElement (dotDotDotToken : option Node) (name : Node)
| ObjectBindingPattern (elements : list Node)
| VariableDeclaration (name : Node) (initializer : Node)
| VariableDeclarationList (declarations : list Node) (flags : NodeFlags)
| VariableStatement (declarationList : Node)
| FunctionDeclaration (modifiers : list Node) (name : Node)
                      (parameters : list Node) (type : Node) (body : Node)
| NamespaceImport (name : Node)
| ImportSpecifier (name : Node)
| NamedImports (elements : list Node)
| ImportClause (name : option Node) (namedBindings : Node)
| ImportDeclaration (importClause : Node) (moduleSpecifier : Node)
(** a node of any other kind, made upstream and only passed through *)
| UpstreamNode (text : string).

(** A node at the declared type [ts.CallExpression].  The type is a
    subtype of [ts.Node]: [call_node] is the node itself. *)
Record CallExpr : Type := {
  expression : Node;
  typeArguments : option (list Node);
  arguments : list Node
}.

Definition call_node (call : CallExpr) : Node :=
  CallExpression (expression call) (typeArguments call) (arguments call).

Coercion call_node : CallExpr >-> Node.

(** The factory functions, with the parameter lists of the compiler API. *)

Definition createIdentifier (text : string) : Node := Identifier text.
Definition createStringLiteral (text : string) : Node := StringLiteral text.
Definition createNumericLiteral (text : string) : Node := NumericLiteral text.

Definition createCall (expression : Node) (typeArguments : option (list Node))
    (argumentsArray : list Node) : CallExpr :=
  {| expression := expression;
     typeArguments := typeArguments;
     arguments := argumentsArray |}.

Definition createPropertyAccess (expression name : Node) : Node :=
  PropertyAccessExpression expression name.

Definition createArrayLiteral (elements : list Node) (multiLine : bool) : Node :=
  ArrayLiteralExpression elements multiLine.

Definition createToken (kind : SyntaxKind) : Node := Token kind.
Definition createModifier (kind : SyntaxKind) : Node := Modifier kind.
Definition createKeywordTypeNode (kind : SyntaxKind) : Node := KeywordTypeNode kind.

Definition createTypeReferenceNode (typeName : Node) (typeArguments : list Node)
    : Node :=
  TypeReferenceNode typeName typeArguments.

Definition createArrayTypeNode (elementType : Node) : Node :=
  ArrayTypeNode elementType.

Definition createParameter (decorators modifiers dotDotDotToken : Undefined)
    (name : Node) (questionToken : Undefined) (type initializer : option Node)
    : Node :=
  ParameterDeclaration name type initializer.

Definition createBlock (statements : list Node) (multiLine : bool) : Node :=
  Block statements multiLine.

Definition createReturn (expression : Node) : Node := ReturnStatement expression.

Definition createExpressionStatement (expression : Node) : Node :=
  ExpressionStatement expression.

Definition createArrowFunction (modifiers typeParameters : Undefined)
    (parameters : list Node) (type : Undefined)
    (equalsGreaterThanToken body : Node) : Node :=
  ArrowFunction parameters equalsGreaterThanToken body.

Definition createBindingElement (dotDotDotToken : option Node)
    (propertyName : Undefined) (name : Node) (initializer : Undefined) : Node :=
  BindingElement dotDotDotToken name.

Definition createObjectBindingPattern (elements : list Node) : Node :=
  ObjectBindingPattern elements.

Definition createVariableDeclaration (name : Node) (type : Undefined)
    (initializer : Node) : Node :=
  VariableDeclaration name initializer.

Definition createVariableDeclarationList (declarations : list Node)
    (flags : NodeFlags) : Node :=
  VariableDeclarationList declarations flags.

Definition createVariableStatement (modifiers : Undefined)
    (declarationList : Node) : Node :=
  VariableStatement declarationList.

Definition createFunctionDeclaration (decorators : Undefined)
    (modifiers : list Node) (asteriskToken : Undefined) (name : Node)
    (typeParameters : Undefined) (parameters : list Node) (type body : Node)
    : Node :=
  FunctionDeclaration modifiers name parameters type body.

Definition createNamespaceImport (name : Node) : Node := NamespaceImport name.

Definition createImportSpecifier (propertyName : Undefined) (name : Node) : Node :=
  ImportSpecifier name.

Definition createNamedImports (elements : list Node) : Node := NamedImports elements.

Definition createImportClause (name : option Node) (namedBindings : Node) : Node :=
  ImportClause name namedBindings.

Definition createImportDeclaration (decorators modifiers : Undefined)
    (importClause moduleSpecifier : Node) : Node :=
  ImportDeclaration importClause moduleSpecifier.

End ts.

Import ts.

(** ** JavaScript run-time behaviour the code relies on *)

Inductive JsError : Type :=
| TypeError (message : string).

(** How a call ends: with a value, or with an exception thrown to the caller. *)
Inductive completion (A : Type) : Type :=
| Normal (value : A)
| Throw (error : JsError).

Arguments Normal {A} value.
Arguments Throw {A} error.

Definition bind {A B : Type} (c : completion A) (k : A -> completion B)
    : completion B :=
  match c with
  | Normal a => k a
  | Throw e => Throw e
  end.

Notation "x <- c ;; k" := (bind c (fun x => k))
  (at level 61, c at next level, right associativity).

(** The operand of a spread element [...x] of an array literal is either a
    JavaScript array or some other object; in [render.ts] the other objects
    are syntax nodes. *)
Inductive SpreadOperand : Type :=
| JsArray (elements : list Node)
| JsNode (node : Node).

(** [[...x]] iterates [x].  An array yields its elements; a syntax node is a
    plain object without [Symbol.iterator], and iterating it raises a
    [TypeError]. *)
Definition spread (x : SpreadOperand) : completion (list Node) :=
  match x with
  | JsArray elements => Normal elements
  | JsNode _ => Throw (TypeError "object is not iterable")
  end.

(** [Array.prototype.reverse] reverses the receiver in place and returns it.
    The first component is the array returned, the second what the receiver
    holds afterwards. *)
Definition Array_reverse {A : Type} (a : list A) : list A * list A :=
  (rev a, rev a).

(** [a.reduce(f, init)] *)
Definition Array_reduce {A B : Type} (a : list A) (f : B -> A -> B) (init : B) : B :=
  fold_left f a init.

(** [a.join(sep)] *)
Definition Array_join (a : list string) (sep : string) : string :=
  String.concat sep a.

(** ** The chain builder (region [helper]) *)

(** [call] is a [ts.CallExpression] by its declared type, and the three
    property reads are the fields of that node; [call.expression] is cast to
    [ts.Identifier] without a check.  Inside [generateCallableChain] the
    function receives what an accumulator returns: a node that the casts
    there declare a call expression, and that is one whenever the elements
    of [calls] are.  The last branch is outside the declared input type;
    nothing below depends on it. *)
Definition replaceCallableProperty (call expr : Node) : Node :=
  match call with
  | CallExpression expression typeArguments arguments =>
      createCall (createPropertyAccess expr expression) typeArguments arguments
  | _ => call
  end.

(** Returns the chain, together with what the array [calls] holds after the
    call ([calls.reverse()] works in place). *)
Definition generateCallableChain (calls : list CallExpr) (expr : Node)
    : Node * list CallExpr :=
  let '(reversed, calls_after) := Array_reverse calls in
  (Array_reduce reversed
     (fun (acc : Node -> Node) (call : CallExpr) =>
        fun expr => replaceCallableProperty (acc call) expr)
     (fun a => a)
     expr,
   calls_after).

(** ** Reading a chain *)

Definition isIdentifier (n : Node) : bool :=
  match n with Identifier _ => true | _ => false end.

(** A standalone call: a call expression whose callee is a bare identifier. *)
Definition isStandaloneCall (call : CallExpr) : bool :=
  isIdentifier (expression call).

(** The chain as the specification words it: every call is attached, first
    to last, to the chain built so far, its bare callee replaced by a
    property access on that chain. *)
Definition attach (receiver : Node) (call : CallExpr) : Node :=
  createCall (createPropertyAccess receiver (expression call))
    (typeArguments call) (arguments call).

Definition fluentChain (calls : list CallExpr) (base : Node) : Node :=
  fold_left attach calls base.

(** The declared shape of a chain of accesses and calls: the [name] of every
    property access on the receiver path is an identifier. *)
Fixpoint wellFormedChain (n : Node) : bool :=
  match n with
  | CallExpression callee _ _ => wellFormedChain callee
  | PropertyAccessExpression receiver name =>
      isIdentifier name && wellFormedChain receiver
  | _ => true
  end.

(** The leftmost receiver of a chain of accesses and calls. *)
Fixpoint chainRoot (n : Node) : Node :=
  match n with
  | CallExpression callee _ _ => chainRoot callee
  | PropertyAccessExpression receiver _ => chainRoot receiver
  | _ => n
  end.

(** The dot-separated segments of an expression, left to right, as its
    printed text shows them: [a.b(x).c] reads [a], [b(x)], [c].  A call
    closes the last segment of its callee. *)
Fixpoint mapLast (f : Node -> Node) (l : list Node) : list Node :=
  match l with
  | [] => []
  | [x] => [f x]
  | x :: rest => x :: mapLast f rest
  end.

Fixpoint segments (n : Node) : list Node :=
  match n with
  | PropertyAccessExpression receiver name => segments receiver ++ segments name
  | CallExpression callee typeArguments arguments =>
      mapLast (fun c => CallExpression c typeArguments arguments) (segments callee)
  | _ => [n]
  end.

(** ** The data model *)

(** A ts-morph node: a wrapper around a compiler node. *)
Record MorphNode : Type := { compilerNode : Node }.

(** A ts-morph source file: where it is, and its top-level statements. *)
Record SourceFile : Type := {
  getFilePath : string;
  getStatements : list MorphNode
}.

(** Modelled from the spec: the declarations of [./transformer] are not part
    of the sources at hand.  An exported declaration that the wrapper has to
    import: [name] for a named export, [node] for a default export. *)
Record ExportInfo : Type := {
  info_name : string;
  info_node : MorphNode
}.

(** Modelled from the spec: the value of an entry of [TransformResult.ref]. *)
Record RefEntry : Type := {
  default : list ExportInfo;
  named : list ExportInfo
}.

(** Modelled from the spec: the type [TransformResult] of [./transformer].
    [positionals] and [options] are arrays of pairs [[name, call]]; [ref] is
    a [Map] from source files, kept in insertion order. *)
Module TransformResult.
Record t : Type := {
  name : string;
  description : Node;
  positionals : list (string * CallExpr);
  options : list (string * CallExpr);
  ref : list (SourceFile * RefEntry)
}.
End TransformResult.

(** Modelled from the spec: the type [Context] of [./generator]; [args] is
    optional. *)
Module Context.
Record t : Type := {
  stdin : bool;
  args : option (list string)
}.
End Context.

Module RenderOptions.
Record t : Type := {
  lib : string;
  functionName : string;
  strict : bool;
  help : bool;
  helpAlias : bool;
  version : bool;
  asyncFunction : bool;
  runnable : bool
}.
End RenderOptions.

(** [Partial<RenderOptions>]: an object in which any property may be absent
    (or undefined). *)
Module PartialRenderOptions.
Record t : Type := {
  lib : option string;
  functionName : option string;
  strict : option bool;
  help : option bool;
  helpAlias : option bool;
  version : option bool;
  asyncFunction : option bool;
  runnable : option bool
}.

(** the object literal [{}] *)
Definition empty : t :=
  {| lib := None; functionName := None; strict := None; help := None;
     helpAlias := None; version := None; asyncFunction := None;
     runnable := None |}.

(** an object that has every property *)
Definition of_full (o : RenderOptions.t) : t :=
  {| lib := Some (RenderOptions.lib o);
     functionName := Some (RenderOptions.functionName o);
     strict := Some (RenderOptions.strict o);
     help := Some (RenderOptions.help o);
     helpAlias := Some (RenderOptions.helpAlias o);
     version := Some (RenderOptions.version o);
     asyncFunction := Some (RenderOptions.asyncFunction o);
     runnable := Some (RenderOptions.runnable o) |}.

(** whether an object has every property *)
Definition complete (o : t) : bool :=
  match lib o, functionName o, strict o, help o,
        helpAlias o, version o, asyncFunction o, runnable o with
  | Some _, Some _, Some _, Some _, Some _, Some _, Some _, Some _ => true
  | _, _, _, _, _, _, _, _ => false
  end.
End PartialRenderOptions.

Module MakeWrapperOptions.
Record t : Type := {
  outputSourceFile : SourceFile;
  entrySourceFile : SourceFile;
  result : TransformResult.t;
  context : Context.t;
  options : RenderOptions.t
}.
End MakeWrapperOptions.

Definition CLI_LIB_NAME : string := "yargs".
Definition FUNCTION_NAME : string := "cli".

Definition DEFAULT_RENDER_OPTIONS : RenderOptions.t :=
  {| RenderOptions.lib := CLI_LIB_NAME;
     RenderOptions.functionName := FUNCTION_NAME;
     RenderOptions.strict := true;
     RenderOptions.help := true;
     RenderOptions.helpAlias := true;
     RenderOptions.version := true;
     RenderOptions.asyncFunction := false;
     RenderOptions.runnable := false |}.

(** [a.push(x)], on an array that the function owns *)
Definition push {A : Type} (a : list A) (x : A) : list A := a ++ [x].

(** The value of [object.key] after lodash's [defaults]: the source's value
    where the object's own resolves to undefined. *)
Definition resolve {A : Type} (own : option A) (source : A) : A :=
  match own with
  | Some v => v
  | None => source
  end.

(** lodash's [defaults(object, source)] assigns to [object] every property of
    [source] that resolves to undefined in [object], and returns [object].
    The first component is the object returned, read at the type
    [RenderOptions]; the second is what [object] holds after the call. *)
Definition defaults (object : PartialRenderOptions.t) (source : RenderOptions.t)
    : RenderOptions.t * PartialRenderOptions.t :=
  let merged :=
    {| RenderOptions.lib :=
         resolve (PartialRenderOptions.lib object) (RenderOptions.lib source);
       RenderOptions.functionName :=
         resolve (PartialRenderOptions.functionName object)
                 (RenderOptions.functionName source);
       RenderOptions.strict :=
         resolve (PartialRenderOptions.strict object) (RenderOptions.strict source);
       RenderOptions.help :=
         resolve (PartialRenderOptions.help object) (RenderOptions.help source);
       RenderOptions.helpAlias :=
         resolve (PartialRenderOptions.helpAlias object)
                 (RenderOptions.helpAlias source);
       RenderOptions.version :=
         resolve (PartialRenderOptions.version object)
                 (RenderOptions.version source);
       RenderOptions.asyncFunction :=
         resolve (PartialRenderOptions.asyncFunction object)
                 (RenderOptions.asyncFunction source);
       RenderOptions.runnable :=
         resolve (PartialRenderOptions.runnable object)
                 (RenderOptions.runnable source) |} in
  (merged, PartialRenderOptions.of_full merged).

(** ** The generator *)

Section Render.

(** What the surroundings supply: Node's [require.resolve], ts-morph's
    [getRelativePathAsModuleSpecifierTo], and
    [getFunctionDeclarationDefaultName] of [./transformer].  They are taken
    where they return: [require.resolve] raises on a module that it cannot
    find, and such a run is not among those modelled, so that a statement
    below that names the runs in which [render] raises names those in which
    the generator itself does. *)
Variable require_resolve : string -> string.
Variable getRelativePathAsModuleSpecifierTo : SourceFile -> SourceFile -> string.
Variable getFunctionDeclarationDefaultName : MorphNode -> string.

(** *** Region [commander] *)

Definition makePositionalCommandString (result : TransformResult.t) : Node :=
  let positionals := TransformResult.positionals result in
  let options := TransformResult.options result in
  let acc := ["$0"] in
  let acc :=
    fold_left (fun acc '(name, _) => push acc ("<" ++ name ++ ">")%string)
              positionals acc in
  let acc :=
    if negb (Nat.eqb 0 (List.length options)) then push acc "[...options]" else acc in
  createStringLiteral (Array_join acc " ").

Definition makeBuilder (result : TransformResult.t) : Node :=
  let positionals := TransformResult.positionals result in
  let options := TransformResult.options result in
  let acc : list CallExpr := [] in
  let acc := fold_left (fun acc '(_, call) => push acc call) positionals acc in
  let acc := fold_left (fun acc '(_, call) => push acc call) options acc in
  let callExpr := fst (generateCallableChain acc (createIdentifier "yargs")) in
  let node :=
    createArrowFunction undefined undefined
      [ createParameter undefined undefined undefined
          (createIdentifier "yargs") undefined None None ]
      undefined
      (createToken EqualsGreaterThanToken)
      (createBlock [ createReturn callExpr ] true) in
  node.

Definition makeArrowFunctionNode (iden : string) (body : list Node) : Node :=
  createArrowFunction undefined undefined
    [ createParameter undefined undefined undefined
        (createIdentifier iden) undefined None None ]
    undefined
    (createToken EqualsGreaterThanToken)
    (createBlock body false).

(** The inner functions of [makeHandler] close over [result],
    [positionals] and [options]; here they take them as arguments. *)
Definition makePositionalBindingNodes (positionals : list (string * CallExpr))
    : list Node :=
  map (fun '(name, _) =>
         createBindingElement None undefined (createIdentifier name) undefined)
      positionals.

Definition makePositionalIdentifierNodes (positionals : list (string * CallExpr))
    : list Node :=
  map (fun '(name, _) => createIdentifier name) positionals.

(** [options.length ? a : b] *)
Definition truthy (n : nat) : bool := negb (Nat.eqb n 0).

Definition makeDeconstructNode (positionals options : list (string * CallExpr))
    : Node :=
  createVariableStatement undefined
    (createVariableDeclarationList
       [ createVariableDeclaration
           (createObjectBindingPattern
              ([ createBindingElement None undefined
                   (createIdentifier "_") undefined;
                 createBindingElement None undefined
                   (createIdentifier "$0") undefined ]
               ++ makePositionalBindingNodes positionals
               ++ (if truthy (List.length options)
                   then [ createBindingElement
                            (Some (createToken DotDotDotToken)) undefined
                            (createIdentifier "options") undefined ]
                   else [])))
           undefined
           (createIdentifier "args") ]
       Const).

Definition makeCommandApplyNode (result : TransformResult.t)
    (positionals options : list (string * CallExpr)) : Node :=
  createExpressionStatement
    (createCall
       (createIdentifier (TransformResult.name result))
       None
       (makePositionalIdentifierNodes positionals
        ++ (if truthy (List.length options)
            then [ createIdentifier "options" ]
            else []))).

(** The array [acc] that [makeHandler] fills first is never read. *)
Definition makeHandler (result : TransformResult.t) : Node :=
  let positionals := TransformResult.positionals result in
  let options := TransformResult.options result in
  makeArrowFunctionNode "args"
    [ makeDeconstructNode positionals options;
      makeCommandApplyNode result positionals options ].

Definition makeCommandNode (result : TransformResult.t) : CallExpr :=
  let commandNode :=
    createCall (createIdentifier "command") None
      [ makePositionalCommandString result;
        TransformResult.description result;
        makeBuilder result;
        makeHandler result ] in
  commandNode.

(** *** Region [wrapper] *)

(** The operand of the spread element in [makeCliCallNode] is the conditional
    expression: with [args] present (any array, the empty one too, is
    truthy) it is the node that [ts.createArrayLiteral] returns, not an
    array that holds it.  In [makeRefImportDeclarationNode], [result.ref] is
    iterated in insertion order, and the test [0 === def.length] with the
    read of [def[0]] is the match on [def]. *)

Definition makeCliCallNode (name : string) (args : option (list string))
    : completion Node :=
  elements <-
    spread (match args with
            | Some args =>
                JsNode (createArrayLiteral
                          (map (fun arg => createStringLiteral arg) args) false)
            | None => JsArray []
            end) ;;
  Normal (createCall (createIdentifier name) None elements : Node).

Definition makeLibImportDeclarationNode (exporter path : string)
    (context : Context.t) : Node :=
  let modulePath :=
    if Context.stdin context then require_resolve path else path in
  createImportDeclaration undefined undefined
    (createImportClause None
       (createNamespaceImport (createIdentifier exporter)))
    (createStringLiteral modulePath).

Definition makeRefImportDeclarationNode (outputSourceFile : SourceFile)
    (result : TransformResult.t) : list Node :=
  let acc := [] in
  fold_left
    (fun acc '(sourceFile, entry) =>
       let def := default entry in
       let filePath :=
         getRelativePathAsModuleSpecifierTo outputSourceFile sourceFile in
       let defaultExporter :=
         match def with
         | [] => None
         | def0 :: _ =>
             Some (createIdentifier
                     (getFunctionDeclarationDefaultName (info_node def0)))
         end in
       push acc
         (createImportDeclaration undefined undefined
            (createImportClause defaultExporter
               (createNamedImports
                  (map (fun info =>
                          createImportSpecifier undefined
                            (createIdentifier (info_name info)))
                       (named entry))))
            (createStringLiteral filePath)))
    (TransformResult.ref result) acc.

Definition makeWrapperFunctionDeclaration (body : list Node)
    (options : RenderOptions.t) : Node :=
  let modifiers :=
    [ createModifier ExportKeyword; createModifier DefaultKeyword ] in
  let modifiers :=
    if RenderOptions.asyncFunction options
    then push modifiers (createModifier AsyncKeyword)
    else modifiers in
  let returnType :=
    if RenderOptions.asyncFunction options
    then createTypeReferenceNode (createIdentifier "Promise")
           [ createKeywordTypeNode VoidKeyword ]
    else createKeywordTypeNode VoidKeyword in
  createFunctionDeclaration undefined modifiers undefined
    (createIdentifier (RenderOptions.functionName options))
    undefined
    [ createParameter undefined undefined undefined
        (createIdentifier "args") undefined
        (Some (createArrayTypeNode (createKeywordTypeNode StringKeyword)))
        (Some (createCall
                 (createPropertyAccess
                    (createPropertyAccess
                       (createIdentifier "process")
                       (createIdentifier "argv"))
                    (createIdentifier "slice"))
                 None
                 [ createNumericLiteral "2" ] : Node)) ]
    returnType
    (createBlock body true).

Definition makeWrapper (body : list Node) (options : MakeWrapperOptions.t)
    : completion (list Node) :=
  let context := MakeWrapperOptions.context options in
  let nodes := [] in
  let nodes :=
    push nodes (makeLibImportDeclarationNode "yargs" "yargs" context) in
  let nodes :=
    if Context.stdin context
    then fold_left (fun nodes stmt => push nodes (compilerNode stmt))
           (getStatements (MakeWrapperOptions.entrySourceFile options)) nodes
    else fold_left (fun nodes node => push nodes node)
           (makeRefImportDeclarationNode
              (MakeWrapperOptions.outputSourceFile options)
              (MakeWrapperOptions.result options))
           nodes in
  let nodes :=
    push nodes
      (makeWrapperFunctionDeclaration body (MakeWrapperOptions.options options)) in
  if RenderOptions.runnable (MakeWrapperOptions.options options)
     || Context.stdin context
  then
    call <- makeCliCallNode
              (RenderOptions.functionName (MakeWrapperOptions.options options))
              (Context.args context) ;;
    Normal (push nodes call)
  else Normal nodes.

(** The nodes that the wrapper assembler emits before the invocation. *)
Definition wrapperNodes (body : list Node) (options : MakeWrapperOptions.t)
    : list Node :=
  let context := MakeWrapperOptions.context options in
  makeLibImportDeclarationNode "yargs" "yargs" context
  :: (if Context.stdin context
      then map compilerNode
             (getStatements (MakeWrapperOptions.entrySourceFile options))
      else makeRefImportDeclarationNode
             (MakeWrapperOptions.outputSourceFile options)
             (MakeWrapperOptions.result options))
  ++ [ makeWrapperFunctionDeclaration body (MakeWrapperOptions.options options) ].

(** *** The orchestrator *)

(** The array [acc] of [render], as it is handed to the chain builder. *)
Definition renderCalls (result : TransformResult.t) (opts : RenderOptions.t)
    : list CallExpr :=
  let strict := RenderOptions.strict opts in
  let help := RenderOptions.help opts in
  let helpAlias := RenderOptions.helpAlias opts in
  let version := RenderOptions.version opts in
  let acc := [] in
  let acc :=
    if strict then push acc (createCall (createIdentifier "strict") None [])
    else acc in
  let acc := push acc (makeCommandNode result) in
  let acc :=
    if help then push acc (createCall (createIdentifier "help") None [])
    else acc in
  let acc :=
    if helpAlias
    then push acc (createCall (createIdentifier "alias") None
                     [ createStringLiteral "help"; createStringLiteral "h" ])
    else acc in
  let acc :=
    if version then push acc (createCall (createIdentifier "version") None [])
    else acc in
  let acc :=
    push acc (createCall (createIdentifier "parse") None
                [ createIdentifier "args" ]) in
  acc.

(** The expression [callableChainNodes] of [render]. *)
Definition renderChain (result : TransformResult.t) (opts : RenderOptions.t)
    : Node :=
  let lib := RenderOptions.lib opts in
  fst (generateCallableChain (renderCalls result opts) (createIdentifier lib)).

(** Returns how the call ends, together with what the caller's [options]
    object holds after the call.  A call that leaves [options] out gets the
    fresh object [{}] of the parameter's default. *)
Definition render (result : TransformResult.t)
    (outputSourceFile entrySourceFile : SourceFile)
    (options : PartialRenderOptions.t) (context : Context.t)
    : completion (list Node) * PartialRenderOptions.t :=
  let '(opts, options_after) := defaults options DEFAULT_RENDER_OPTIONS in
  let callableChainNodes := renderChain result opts in
  let yargsNode := createExpressionStatement callableChainNodes in
  (makeWrapper [ yargsNode ]
     {| MakeWrapperOptions.outputSourceFile := outputSourceFile;
        MakeWrapperOptions.entrySourceFile := entrySourceFile;
        MakeWrapperOptions.result := result;
        MakeWrapperOptions.context := context;
        MakeWrapperOptions.options := opts |},
   options_after).

End Render.

(** ** The shape of a chain *)

(** What the name slot of the outermost property access holds: the callee of
    the last call, under one property access per earlier call, each with
    that earlier call as its receiver. *)
Fixpoint nestedName (first : CallExpr) (rest : list CallExpr) : Node :=
  match rest with
  | [] => expression first
  | next :: rest' =>
      PropertyAccessExpression (call_node first) (nestedName next rest')
  end.

(** ** Sample inputs *)

Definition strictCall : CallExpr := createCall (createIdentifier "strict") None [].

Definition parseCall : CallExpr :=
  createCall (createIdentifier "parse") None [ createIdentifier "args" ].


Definition sampleResult : TransformResult.t :=
  {| TransformResult.name := "copy";
     TransformResult.description := StringLiteral "copy a file";
     TransformResult.positionals :=
       [ ("file", createCall (createIdentifier "positional") None
                    [ StringLiteral "file" ]);
         ("out", createCall (createIdentifier "positional") None
                   [ StringLiteral "out" ]) ];
     TransformResult.options :=
       [ ("force", createCall (createIdentifier "option") None
                     [ StringLiteral "force" ]) ];
     TransformResult.ref := [] |}.

Definition sampleOutput : SourceFile :=
  {| getFilePath := "cli.ts"; getStatements := [] |}.

Definition sampleEntry : SourceFile :=
  {| getFilePath := "copy.ts";
     getStatements :=
       [ {| compilerNode := UpstreamNode "export default function copy() {}" |} ] |}.

Definition sampleResolve (path : string) : string :=
  ("/node_modules/" ++ path)%string.

Definition sampleRelativePath (from to : SourceFile) : string :=
  ("./" ++ getFilePath to)%string.

Definition sampleDefaultName (node : MorphNode) : string := "copy".

Definition sampleRender :=
  render sampleResolve sampleRelativePath sampleDefaultName.

(** ** Reading the generated nodes *)

(** The name that an element of a binding pattern binds. *)
Definition bindingName (element : Node) : Node :=
  match element with
  | BindingElement _ name => name
  | _ => element
  end.

(** Whether an element of a binding pattern is a rest element [...name]. *)
Definition isRestElement (element : Node) : bool :=
  match element with
  | BindingElement (Some _) _ => true
  | _ => false
  end.

(** The import declaration that [makeRefImportDeclarationNode] emits for one
    entry of [result.ref], given the module specifier and the name of the
    default export. *)
Definition refImport (filePath : string) (defaultName : option string)
    (names : list string) : Node :=
  ImportDeclaration
    (ImportClause
       (match defaultName with
        | Some name => Some (Identifier name)
        | None => None
        end)
       (NamedImports (map (fun name => ImportSpecifier (Identifier name)) names)))
    (StringLiteral filePath).

(** * Properties *)

(** ** Arrays and strings *)

Lemma fold_left_push {A B : Type} (f : A -> B) (l : list A) (acc : list B) :
  fold_left (fun acc x => push acc (f x)) l acc = acc ++ map f l.
Proof.
  revert acc.
  induction l as [| x l IH]; intros acc; simpl.
  - now rewrite app_nil_r.
  - rewrite IH. unfold push. now rewrite <- app_assoc.
Qed.

Lemma fold_left_push_pair {A B C : Type} (f : A -> B -> C) (l : list (A * B))
    (acc : list C) :
  fold_left (fun acc '(a, b) => push acc (f a b)) l acc
  = acc ++ map (fun p => f (fst p) (snd p)) l.
Proof.
  rewrite <- (fold_left_push (fun p => f (fst p) (snd p))).
  revert acc.
  induction l as [| [a b] l IH]; intros acc; simpl; auto.
Qed.

Lemma last_cons {A : Type} (x d : A) (l : list A) :
  last (x :: l) d = last l x.
Proof.
  revert x d.
  induction l as [| y l IH]; intros x d; [reflexivity |].
  change (last (x :: y :: l) d) with (last (y :: l) d).
  now rewrite !IH.
Qed.

(** ** The chain builder *)

Lemma generateCallableChain_nil (base : Node) :
  generateCallableChain [] base = (base, []).
Proof. reflexivity. Qed.

(** The fold, read from the first call: the chain over [call :: rest] on
    [base] attaches to [base] the chain over [rest] on [call]. *)
Lemma generateCallableChain_cons (call : CallExpr) (rest : list CallExpr)
    (base : Node) :
  fst (generateCallableChain (call :: rest) base)
  = replaceCallableProperty (fst (generateCallableChain rest call)) base.
Proof.
  unfold generateCallableChain, Array_reverse, Array_reduce. simpl.
  now rewrite fold_left_app.
Qed.

Lemma generateCallableChain_after (calls : list CallExpr) (base : Node) :
  snd (generateCallableChain calls base) = rev calls.
Proof. reflexivity. Qed.


(** The tree that the chain builder returns for one call or more. *)
Lemma generateCallableChain_shape (first : CallExpr) (rest : list CallExpr)
    (base : Node) :
  fst (generateCallableChain (first :: rest) base)
  = CallExpression
      (PropertyAccessExpression base (nestedName first rest))
      (typeArguments (last rest first))
      (arguments (last rest first)).
Proof.
  revert first base.
  induction rest as [| next rest IH]; intros first base.
  - reflexivity.
  - rewrite generateCallableChain_cons, IH, last_cons. reflexivity.
Qed.

Lemma generateCallableChain_call (first : CallExpr) (rest : list CallExpr)
    (base : Node) :
  exists call : CallExpr,
    fst (generateCallableChain (first :: rest) base) = call_node call.
Proof.
  rewrite generateCallableChain_shape.
  now exists (createCall (PropertyAccessExpression base (nestedName first rest))
                (typeArguments (last rest first)) (arguments (last rest first))).
Qed.

(** For at most one call the tree is the fluent chain. *)
Lemma generateCallableChain_single (call : CallExpr) (base : Node) :
  fst (generateCallableChain [call] base) = fluentChain [call] base.
Proof. reflexivity. Qed.

Lemma segments_nonempty (n : Node) : segments n <> [].
Proof.
  induction n; simpl; try discriminate.
  - destruct (segments n) as [| x l]; [congruence |].
    clear IHn. revert x.
    induction l as [| y l IHl]; intros x; [discriminate |].
    simpl. discriminate.
  - destruct (segments n1); [congruence | discriminate].
Qed.

Lemma mapLast_app (f : Node -> Node) (l1 l2 : list Node) :
  l2 <> [] -> mapLast f (l1 ++ l2) = l1 ++ mapLast f l2.
Proof.
  intros Hl2.
  induction l1 as [| x l1 IH]; [reflexivity |].
  simpl. rewrite IH.
  destruct (l1 ++ l2) eqn:E; [| reflexivity].
  apply app_eq_nil in E. tauto.
Qed.

Lemma segments_replaceCallableProperty (call : CallExpr) (receiver : Node) :
  segments (replaceCallableProperty call receiver)
  = segments receiver ++ segments call.
Proof.
  simpl. apply mapLast_app, segments_nonempty.
Qed.

(** Read left to right, the tree shows the base and then the calls in
    their order: the text printed for it is that of the fluent chain. *)
Lemma segments_generateCallableChain (calls : list CallExpr) (base : Node) :
  segments (fst (generateCallableChain calls base))
  = segments base ++ flat_map (fun call : CallExpr => segments call) calls.
Proof.
  revert base.
  induction calls as [| call rest IH]; intros base.
  - simpl. now rewrite app_nil_r.
  - rewrite generateCallableChain_cons.
    destruct rest as [| next rest'].
    + rewrite generateCallableChain_nil. simpl fst.
      rewrite segments_replaceCallableProperty. simpl. now rewrite app_nil_r.
    + destruct (generateCallableChain_call next rest' call) as [c Hc].
      rewrite Hc, segments_replaceCallableProperty, <- Hc, IH.
      reflexivity.
Qed.

Lemma segments_fluentChain (calls : list CallExpr) (base : Node) :
  segments (fluentChain calls base)
  = segments base ++ flat_map (fun call : CallExpr => segments call) calls.
Proof.
  revert base.
  induction calls as [| call rest IH]; intros base.
  - simpl. now rewrite app_nil_r.
  - change (fluentChain (call :: rest) base)
      with (fluentChain rest (attach base call)).
    rewrite IH.
    change (attach base call) with (replaceCallableProperty call base).
    rewrite segments_replaceCallableProperty.
    simpl. now rewrite <- app_assoc.
Qed.

Lemma segments_standalone (call : CallExpr) :
  isStandaloneCall call = true -> segments call = [call_node call].
Proof.
  destruct call as [callee targs args]. unfold isStandaloneCall. simpl.
  destruct callee; simpl; try discriminate. reflexivity.
Qed.

Lemma chainRoot_generateCallableChain (calls : list CallExpr) (base : Node) :
  chainRoot (fst (generateCallableChain calls base)) = chainRoot base.
Proof.
  destruct calls as [| first rest]; [reflexivity |].
  now rewrite generateCallableChain_shape.
Qed.

(** From the second call on, the name slot of the outermost property access
    holds a property access and not an identifier, whatever the calls are. *)
Lemma generateCallableChain_malformed (first next : CallExpr)
    (rest : list CallExpr) (base : Node) :
  wellFormedChain (fst (generateCallableChain (first :: next :: rest) base))
  = false.
Proof. now rewrite generateCallableChain_shape. Qed.

(** For two standalone calls or more the tree is not the fluent chain. *)
Lemma generateCallableChain_not_fluent (first next : CallExpr)
    (rest : list CallExpr) (base : Node) :
  Forall (fun call => isStandaloneCall call = true) (first :: next :: rest) ->
  fst (generateCallableChain (first :: next :: rest) base)
  <> fluentChain (first :: next :: rest) base.
Proof.
  intros Hcalls Heq.
  assert (Hwf : forall calls receiver,
             Forall (fun call => isStandaloneCall call = true) calls ->
             calls <> [] ->
             exists receiver' name targs args,
               fluentChain calls receiver
               = CallExpression
                   (PropertyAccessExpression receiver' (Identifier name))
                   targs args).
  { induction calls as [| call calls IH]; intros receiver Hall Hne;
      [congruence |].
    inversion Hall as [| ? ? Hcall Hrest]; subst.
    destruct calls as [| call' calls'].
    - destruct call as [callee targs args]. unfold isStandaloneCall in Hcall.
      simpl in Hcall. destruct callee; try discriminate.
      now exists receiver, text, targs, args.
    - apply (IH (attach receiver call) Hrest). discriminate. }
  destruct (Hwf (first :: next :: rest) base Hcalls) as (r & n & t & a & Hf);
    [discriminate |].
  rewrite generateCallableChain_shape, Hf in Heq.
  simpl in Heq. discriminate.
Qed.


(** ** C1: the tree of the chain *)

(** C1.  The claim: for standalone calls C1..Cn and a base B the chain
    builder returns the tree of [B.C1(...).C2(...)....Cn(...)], every call
    attached to the chain before it.  The code does so for no call and for
    one call only.  For [strict()] and [parse(args)] on [yargs] it returns a
    single call whose callee is a property access on [yargs] with, in the
    name slot, the property access [strict().parse]: the standalone call
    [strict()] is never attached to [yargs], and the tree is neither the
    fluent chain nor well formed.  (The accumulator is applied to the call
    where it should be applied to the call attached to the receiver; the
    printed text is the same, see [segments_generateCallableChain].) *)
Theorem generateCallableChain_two_calls :
  fst (generateCallableChain [strictCall; parseCall] (Identifier "yargs"))
  = CallExpression
      (PropertyAccessExpression (Identifier "yargs")
         (PropertyAccessExpression
            (CallExpression (Identifier "strict") None [])
            (Identifier "parse")))
      None [Identifier "args"]
  /\ fluentChain [strictCall; parseCall] (Identifier "yargs")
     = CallExpression
         (PropertyAccessExpression
            (CallExpression
               (PropertyAccessExpression (Identifier "yargs")
                  (Identifier "strict"))
               None [])
            (Identifier "parse"))
         None [Identifier "args"]
  /\ fst (generateCallableChain [strictCall; parseCall] (Identifier "yargs"))
     <> fluentChain [strictCall; parseCall] (Identifier "yargs")
  /\ wellFormedChain
       (fst (generateCallableChain [strictCall; parseCall] (Identifier "yargs")))
     = false.
Proof.
  repeat split; try reflexivity.
  cbv. discriminate.
Qed.

(** ** C4: a callee that is not an identifier *)




(** ** The wrapper assembler *)

Section Wrapper.

Variable require_resolve : string -> string.
Variable getRelativePathAsModuleSpecifierTo : SourceFile -> SourceFile -> string.
Variable getFunctionDeclarationDefaultName : MorphNode -> string.

Local Abbreviation makeWrapper' :=
  (makeWrapper require_resolve getRelativePathAsModuleSpecifierTo
     getFunctionDeclarationDefaultName).
Local Abbreviation render' :=
  (render require_resolve getRelativePathAsModuleSpecifierTo
     getFunctionDeclarationDefaultName).
Local Abbreviation wrapperNodes' :=
  (wrapperNodes require_resolve getRelativePathAsModuleSpecifierTo
     getFunctionDeclarationDefaultName).


(** With arguments to pass, the invocation cannot be built: the operand of
    the spread element is the array literal node. *)
Lemma makeCliCallNode_args (name : string) (args : list string) :
  makeCliCallNode name (Some args) = Throw (TypeError "object is not iterable").
Proof. reflexivity. Qed.

Lemma makeCliCallNode_no_args (name : string) :
  makeCliCallNode name None = Normal (CallExpression (Identifier name) None []).
Proof. reflexivity. Qed.

Lemma makeWrapper_nodes (body : list Node) (options : MakeWrapperOptions.t) :
  makeWrapper' body options
  = if RenderOptions.runnable (MakeWrapperOptions.options options)
       || Context.stdin (MakeWrapperOptions.context options)
    then
      match Context.args (MakeWrapperOptions.context options) with
      | Some _ => Throw (TypeError "object is not iterable")
      | None =>
          Normal (wrapperNodes' body options
                  ++ [ CallExpression
                         (Identifier (RenderOptions.functionName
                                        (MakeWrapperOptions.options options)))
                         None [] ])
      end
    else Normal (wrapperNodes' body options).
Proof.
  unfold makeWrapper, wrapperNodes.
  assert (Hmid : forall (nodes l : list Node),
             fold_left (fun nodes node => push nodes node) l nodes = nodes ++ l).
  { intros nodes l. rewrite (fold_left_push (fun node => node)).
    now rewrite map_id. }
  rewrite Hmid, (fold_left_push compilerNode).
  unfold push at 1 2. simpl app.
  destruct (Context.stdin (MakeWrapperOptions.context options));
    destruct (RenderOptions.runnable (MakeWrapperOptions.options options));
    simpl orb; cbv iota;
    try (destruct (Context.args (MakeWrapperOptions.context options));
         unfold push; simpl; rewrite <- ?app_assoc; reflexivity);
    unfold push; simpl; rewrite <- ?app_assoc; reflexivity.
Qed.

(** What [render] hands to the wrapper assembler. *)
Lemma render_makeWrapper (result : TransformResult.t)
    (outputSourceFile entrySourceFile : SourceFile)
    (options : PartialRenderOptions.t) (context : Context.t) :
  fst (render' result outputSourceFile entrySourceFile options context)
  = makeWrapper'
      [ ExpressionStatement
          (renderChain result (fst (defaults options DEFAULT_RENDER_OPTIONS))) ]
      {| MakeWrapperOptions.outputSourceFile := outputSourceFile;
         MakeWrapperOptions.entrySourceFile := entrySourceFile;
         MakeWrapperOptions.result := result;
         MakeWrapperOptions.context := context;
         MakeWrapperOptions.options :=
           fst (defaults options DEFAULT_RENDER_OPTIONS) |}.
Proof. reflexivity. Qed.

End Wrapper.

(** ** The command string and the handler *)

Lemma append_empty_r (s : string) : (s ++ "")%string = s.
Proof. induction s as [| c s IH]; simpl; [reflexivity | now rewrite IH]. Qed.

Lemma append_assoc (s1 s2 s3 : string) :
  (s1 ++ (s2 ++ s3))%string = ((s1 ++ s2) ++ s3)%string.
Proof. induction s1 as [| c s1 IH]; simpl; [reflexivity | now rewrite IH]. Qed.

Lemma concat_empty_cons (x : string) (l : list string) :
  String.concat "" (x :: l) = (x ++ String.concat "" l)%string.
Proof.
  destruct l as [| y l]; simpl; [| reflexivity].
  now rewrite append_empty_r.
Qed.

Lemma concat_empty_app (l1 l2 : list string) :
  String.concat "" (l1 ++ l2)
  = (String.concat "" l1 ++ String.concat "" l2)%string.
Proof.
  induction l1 as [| x l1 IH].
  - reflexivity.
  - change ((x :: l1) ++ l2) with (x :: (l1 ++ l2)).
    rewrite !concat_empty_cons, IH. now rewrite append_assoc.
Qed.

(** Joining with a separator puts the separator before every element but
    the first. *)
Lemma Array_join_cons (sep x : string) (l : list string) :
  Array_join (x :: l) sep
  = (x ++ String.concat "" (map (fun y => sep ++ y) l))%string.
Proof.
  unfold Array_join. revert x.
  induction l as [| y l IH]; intros x.
  - simpl. now rewrite append_empty_r.
  - change (String.concat sep (x :: y :: l))
      with (x ++ sep ++ String.concat sep (y :: l))%string.
    rewrite IH. simpl map. rewrite concat_empty_cons.
    now rewrite <- append_assoc.
Qed.

(** C6.  The command string starts with [$0], continues with [<name>] for
    every positional in declared order, and ends with [[...options]] if and
    only if there is an option; all separated by one space.  No positional
    and no option give ["$0"]; the positionals [file] and [out] with one
    option give ["$0 <file> <out> [...options]"]. *)
Theorem makePositionalCommandString_text :
  (forall result : TransformResult.t,
     makePositionalCommandString result
     = StringLiteral
         ("$0"
          ++ String.concat ""
               (map (fun name => " <" ++ name ++ ">")
                  (map fst (TransformResult.positionals result)))
          ++ match TransformResult.options result with
             | [] => ""
             | _ :: _ => " [...options]"
             end)%string)
  /\ (forall name description ref,
        makePositionalCommandString
          {| TransformResult.name := name;
             TransformResult.description := description;
             TransformResult.positionals := [];
             TransformResult.options := [];
             TransformResult.ref := ref |}
        = StringLiteral "$0")
  /\ (forall name description ref fileCall outCall option optionCall,
        makePositionalCommandString
          {| TransformResult.name := name;
             TransformResult.description := description;
             TransformResult.positionals := [("file", fileCall); ("out", outCall)];
             TransformResult.options := [(option, optionCall)];
             TransformResult.ref := ref |}
        = StringLiteral "$0 <file> <out> [...options]").
Proof.
  split; [| split; reflexivity].
  intros result. unfold makePositionalCommandString, createStringLiteral.
  rewrite (fold_left_push_pair (fun (name : string) (_ : CallExpr) =>
                                  ("<" ++ name ++ ">")%string)).
  f_equal.
  destruct (TransformResult.options result) as [| o os];
    simpl Nat.eqb; cbv iota; simpl negb; cbv iota; unfold push;
    simpl app; rewrite Array_join_cons; f_equal.
  - rewrite !map_map, append_empty_r. reflexivity.
  - rewrite map_app, concat_empty_app, !map_map. reflexivity.
Qed.

(** C5.  The body of the handler callback is two statements.  The first
    destructures the parameter [args]: it binds [_], [$0], one name per
    positional in declared order and, if and only if there is an option,
    the rest as [options].  The second calls [result.name] with the
    positional identifiers in declared order, followed by [options] if and
    only if there is an option. *)
Theorem makeHandler_two_statements (result : TransformResult.t) :
  let names := map fst (TransformResult.positionals result) in
  let hasOptions :=
    match TransformResult.options result with [] => false | _ :: _ => true end in
  makeHandler result
  = ArrowFunction [ ParameterDeclaration (Identifier "args") None None ]
      (Token EqualsGreaterThanToken)
      (Block
         [ VariableStatement
             (VariableDeclarationList
                [ VariableDeclaration
                    (ObjectBindingPattern
                       (BindingElement None (Identifier "_")
                        :: BindingElement None (Identifier "$0")
                        :: map (fun name => BindingElement None (Identifier name))
                             names
                        ++ (if hasOptions
                            then [ BindingElement (Some (Token DotDotDotToken))
                                     (Identifier "options") ]
                            else [])))
                    (Identifier "args") ]
                Const);
           ExpressionStatement
             (CallExpression (Identifier (TransformResult.name result)) None
                (map Identifier names
                 ++ (if hasOptions then [ Identifier "options" ] else []))) ]
         false).
Proof.
  intros names hasOptions. subst names hasOptions.
  unfold makeHandler, makeArrowFunctionNode, makeDeconstructNode,
    makeCommandApplyNode, makePositionalBindingNodes,
    makePositionalIdentifierNodes, truthy.
  rewrite !map_map.
  assert (Hb : map (fun '(name, _) =>
                      createBindingElement None undefined (createIdentifier name)
                        undefined)
                 (TransformResult.positionals result)
               = map (fun p : string * CallExpr =>
                        BindingElement None (Identifier (fst p)))
                   (TransformResult.positionals result)).
  { apply map_ext. now intros [name call]. }
  assert (Hi : map (fun '(name, _) => createIdentifier name)
                 (TransformResult.positionals result)
               = map (fun p : string * CallExpr => Identifier (fst p))
                   (TransformResult.positionals result)).
  { apply map_ext. now intros [name call]. }
  rewrite Hb, Hi.
  destruct (TransformResult.options result); reflexivity.
Qed.

(** ** The orchestrator *)

Lemma renderCalls_links (result : TransformResult.t) (opts : RenderOptions.t) :
  renderCalls result opts
  = (if RenderOptions.strict opts
     then [ createCall (Identifier "strict") None [] ] else [])
    ++ [ makeCommandNode result ]
    ++ (if RenderOptions.help opts
        then [ createCall (Identifier "help") None [] ] else [])
    ++ (if RenderOptions.helpAlias opts
        then [ createCall (Identifier "alias") None
                 [ StringLiteral "help"; StringLiteral "h" ] ]
        else [])
    ++ (if RenderOptions.version opts
        then [ createCall (Identifier "version") None [] ] else [])
    ++ [ createCall (Identifier "parse") None [ Identifier "args" ] ].
Proof.
  unfold renderCalls.
  destruct (RenderOptions.strict opts), (RenderOptions.help opts),
    (RenderOptions.helpAlias opts), (RenderOptions.version opts);
    reflexivity.
Qed.

Lemma renderCalls_standalone (result : TransformResult.t) (opts : RenderOptions.t) :
  Forall (fun call => isStandaloneCall call = true) (renderCalls result opts).
Proof.
  rewrite renderCalls_links.
  destruct (RenderOptions.strict opts), (RenderOptions.help opts),
    (RenderOptions.helpAlias opts), (RenderOptions.version opts);
    repeat constructor.
Qed.

Lemma flat_map_segments_standalone (calls : list CallExpr) :
  Forall (fun call => isStandaloneCall call = true) calls ->
  flat_map (fun call : CallExpr => segments call) calls = map call_node calls.
Proof.
  induction 1 as [| call calls Hcall _ IH]; [reflexivity |].
  cbn [flat_map map]. now rewrite (segments_standalone call Hcall), IH.
Qed.

Section Orchestrator.

Variable require_resolve : string -> string.
Variable getRelativePathAsModuleSpecifierTo : SourceFile -> SourceFile -> string.
Variable getFunctionDeclarationDefaultName : MorphNode -> string.

Local Abbreviation makeWrapper' :=
  (makeWrapper require_resolve getRelativePathAsModuleSpecifierTo
     getFunctionDeclarationDefaultName).
Local Abbreviation render' :=
  (render require_resolve getRelativePathAsModuleSpecifierTo
     getFunctionDeclarationDefaultName).
Local Abbreviation wrapperNodes' :=
  (wrapperNodes require_resolve getRelativePathAsModuleSpecifierTo
     getFunctionDeclarationDefaultName).

(** C7.  Whatever the flags, the calls that [render] chains are, in this
    order: [strict()] if and only if [strict]; the call of [command] on the
    command string, the description, the builder callback and the handler
    callback; [help()] if and only if [help]; [alias("help", "h")] if and
    only if [helpAlias]; [version()] if and only if [version];
    [parse(args)].  So [command(...)] is always among them and
    [parse(args)] is always the last; and the chain in the body of the
    wrapper reads, left to right, the library identifier and then these
    links. *)
Theorem render_chain_links (result : TransformResult.t)
    (outputSourceFile entrySourceFile : SourceFile)
    (options : PartialRenderOptions.t) (context : Context.t) :
  let opts := fst (defaults options DEFAULT_RENDER_OPTIONS) in
  let command :=
    createCall (Identifier "command") None
      [ makePositionalCommandString result;
        TransformResult.description result;
        makeBuilder result;
        makeHandler result ] in
  let parse := createCall (Identifier "parse") None [ Identifier "args" ] in
  let links :=
    (if RenderOptions.strict opts
     then [ createCall (Identifier "strict") None [] ] else [])
    ++ [ command ]
    ++ (if RenderOptions.help opts
        then [ createCall (Identifier "help") None [] ] else [])
    ++ (if RenderOptions.helpAlias opts
        then [ createCall (Identifier "alias") None
                 [ StringLiteral "help"; StringLiteral "h" ] ]
        else [])
    ++ (if RenderOptions.version opts
        then [ createCall (Identifier "version") None [] ] else [])
    ++ [ parse ] in
  renderCalls result opts = links
  /\ In command links
  /\ (exists before, links = before ++ [ parse ] /\ In command before)
  /\ last links command = parse
  /\ segments (renderChain result opts)
     = Identifier (RenderOptions.lib opts) :: map call_node links
  /\ fst (render' result outputSourceFile entrySourceFile options context)
     = makeWrapper' [ ExpressionStatement (renderChain result opts) ]
         {| MakeWrapperOptions.outputSourceFile := outputSourceFile;
            MakeWrapperOptions.entrySourceFile := entrySourceFile;
            MakeWrapperOptions.result := result;
            MakeWrapperOptions.context := context;
            MakeWrapperOptions.options := opts |}.
Proof.
  intros opts command parse links.
  assert (Hlinks : renderCalls result opts = links)
    by apply renderCalls_links.
  split; [exact Hlinks |].
  split; [| split; [| split; [| split]]].
  - subst links. apply in_or_app. right. now left.
  - exists ((if RenderOptions.strict opts
             then [ createCall (Identifier "strict") None [] ] else [])
            ++ [ command ]
            ++ (if RenderOptions.help opts
                then [ createCall (Identifier "help") None [] ] else [])
            ++ (if RenderOptions.helpAlias opts
                then [ createCall (Identifier "alias") None
                         [ StringLiteral "help"; StringLiteral "h" ] ]
                else [])
            ++ (if RenderOptions.version opts
                then [ createCall (Identifier "version") None [] ] else [])).
    split.
    + subst links. now rewrite <- !app_assoc.
    + apply in_or_app. right. now left.
  - subst links.
    destruct (RenderOptions.strict opts), (RenderOptions.help opts),
      (RenderOptions.helpAlias opts), (RenderOptions.version opts);
      reflexivity.
  - unfold renderChain. rewrite segments_generateCallableChain.
    rewrite flat_map_segments_standalone by apply renderCalls_standalone.
    now rewrite Hlinks.
  - reflexivity.
Qed.

(** C8.  [render] works with its [options] merged over
    [DEFAULT_RENDER_OPTIONS]: a property that the caller supplies wins, any
    other takes the default.  With no override [strict], [help],
    [helpAlias] and [version] are true and [asyncFunction] and [runnable]
    false, so that all six links are chained; overriding [asyncFunction]
    alone leaves the others at their defaults. *)
Theorem render_merges_defaults (result : TransformResult.t)
    (outputSourceFile entrySourceFile : SourceFile)
    (options : PartialRenderOptions.t) (context : Context.t) :
  let opts := fst (defaults options DEFAULT_RENDER_OPTIONS) in
  fst (render' result outputSourceFile entrySourceFile options context)
  = makeWrapper' [ ExpressionStatement (renderChain result opts) ]
      {| MakeWrapperOptions.outputSourceFile := outputSourceFile;
         MakeWrapperOptions.entrySourceFile := entrySourceFile;
         MakeWrapperOptions.result := result;
         MakeWrapperOptions.context := context;
         MakeWrapperOptions.options := opts |}
  /\ opts
     = {| RenderOptions.lib :=
            match PartialRenderOptions.lib options with
            | Some v => v | None => "yargs" end;
          RenderOptions.functionName :=
            match PartialRenderOptions.functionName options with
            | Some v => v | None => "cli" end;
          RenderOptions.strict :=
            match PartialRenderOptions.strict options with
            | Some v => v | None => true end;
          RenderOptions.help :=
            match PartialRenderOptions.help options with
            | Some v => v | None => true end;
          RenderOptions.helpAlias :=
            match PartialRenderOptions.helpAlias options with
            | Some v => v | None => true end;
          RenderOptions.version :=
            match PartialRenderOptions.version options with
            | Some v => v | None => true end;
          RenderOptions.asyncFunction :=
            match PartialRenderOptions.asyncFunction options with
            | Some v => v | None => false end;
          RenderOptions.runnable :=
            match PartialRenderOptions.runnable options with
            | Some v => v | None => false end |}
  /\ fst (defaults PartialRenderOptions.empty DEFAULT_RENDER_OPTIONS)
     = {| RenderOptions.lib := "yargs";
          RenderOptions.functionName := "cli";
          RenderOptions.strict := true;
          RenderOptions.help := true;
          RenderOptions.helpAlias := true;
          RenderOptions.version := true;
          RenderOptions.asyncFunction := false;
          RenderOptions.runnable := false |}
  /\ fst (defaults
            {| PartialRenderOptions.lib := None;
               PartialRenderOptions.functionName := None;
               PartialRenderOptions.strict := None;
               PartialRenderOptions.help := None;
               PartialRenderOptions.helpAlias := None;
               PartialRenderOptions.version := None;
               PartialRenderOptions.asyncFunction := Some true;
               PartialRenderOptions.runnable := None |}
            DEFAULT_RENDER_OPTIONS)
     = {| RenderOptions.lib := "yargs";
          RenderOptions.functionName := "cli";
          RenderOptions.strict := true;
          RenderOptions.help := true;
          RenderOptions.helpAlias := true;
          RenderOptions.version := true;
          RenderOptions.asyncFunction := true;
          RenderOptions.runnable := false |}
  /\ renderCalls result
       (fst (defaults PartialRenderOptions.empty DEFAULT_RENDER_OPTIONS))
     = [ createCall (Identifier "strict") None [];
         makeCommandNode result;
         createCall (Identifier "help") None [];
         createCall (Identifier "alias") None
           [ StringLiteral "help"; StringLiteral "h" ];
         createCall (Identifier "version") None [];
         createCall (Identifier "parse") None [ Identifier "args" ] ].
Proof.
  intros opts.
  split; [reflexivity |].
  split; [| repeat split].
  subst opts. unfold defaults, resolve. cbn [fst]. reflexivity.
Qed.

(** C10.  Whatever the [lib] option is, the namespace import binds the
    local name [yargs], and the builder callback takes the parameter [yargs]
    and returns a chain rooted at the identifier [yargs]; the root of the
    top-level chain is the identifier named by [lib], which is the caller's
    [lib] if supplied and [yargs] otherwise.  [render] emits the import first
    and the wrapper declaration around the top-level chain after it; the
    builder callback is the third argument of [command(...)]. *)
Theorem render_lib_roots_top_level_chain_only (result : TransformResult.t)
    (outputSourceFile entrySourceFile : SourceFile)
    (options : PartialRenderOptions.t) (context : Context.t) :
  let opts := fst (defaults options DEFAULT_RENDER_OPTIONS) in
  let import :=
    ImportDeclaration
      (ImportClause None (NamespaceImport (Identifier "yargs")))
      (StringLiteral
         (if Context.stdin context then require_resolve "yargs" else "yargs")) in
  match fst (render' result outputSourceFile entrySourceFile options context) with
  | Normal nodes =>
      exists rest,
        nodes = import :: rest
        /\ In (makeWrapperFunctionDeclaration
                 [ ExpressionStatement (renderChain result opts) ] opts)
              rest
  | Throw _ =>
      Context.args context <> None
      /\ RenderOptions.runnable opts || Context.stdin context = true
  end
  /\ chainRoot (renderChain result opts) = Identifier (RenderOptions.lib opts)
  /\ RenderOptions.lib opts
     = match PartialRenderOptions.lib options with
       | Some lib => lib
       | None => "yargs"
       end
  /\ In (makeCommandNode result) (renderCalls result opts)
  /\ nth_error (arguments (makeCommandNode result)) 2 = Some (makeBuilder result)
  /\ exists chain,
       makeBuilder result
       = ArrowFunction [ ParameterDeclaration (Identifier "yargs") None None ]
           (Token EqualsGreaterThanToken)
           (Block [ ReturnStatement chain ] true)
       /\ chainRoot chain = Identifier "yargs".
Proof.
  intros opts import.
  split; [| split; [| split; [| split; [| split]]]].
  - rewrite render_makeWrapper, makeWrapper_nodes.
    fold opts. cbn [MakeWrapperOptions.options MakeWrapperOptions.context].
    assert (Hnodes : forall tail,
               exists rest,
                 wrapperNodes require_resolve getRelativePathAsModuleSpecifierTo
                   getFunctionDeclarationDefaultName
                   [ ExpressionStatement (renderChain result opts) ]
                   {| MakeWrapperOptions.outputSourceFile := outputSourceFile;
                      MakeWrapperOptions.entrySourceFile := entrySourceFile;
                      MakeWrapperOptions.result := result;
                      MakeWrapperOptions.context := context;
                      MakeWrapperOptions.options := opts |} ++ tail
                 = import :: rest
                 /\ In (makeWrapperFunctionDeclaration
                          [ ExpressionStatement (renderChain result opts) ] opts)
                       rest).
    { intros tail. unfold wrapperNodes.
      cbn [MakeWrapperOptions.options MakeWrapperOptions.context
           MakeWrapperOptions.entrySourceFile MakeWrapperOptions.outputSourceFile
           MakeWrapperOptions.result].
      eexists. split; [reflexivity |].
      apply in_or_app. left. apply in_or_app. right. now left. }
    destruct (RenderOptions.runnable opts || Context.stdin context) eqn:Hcall.
    + destruct (Context.args context) as [args |].
      * split; [discriminate | reflexivity].
      * apply Hnodes.
    + specialize (Hnodes []). now rewrite app_nil_r in Hnodes.
  - unfold renderChain. now rewrite chainRoot_generateCallableChain.
  - subst opts. simpl. now destruct (PartialRenderOptions.lib options).
  - rewrite renderCalls_links. apply in_or_app. right. now left.
  - reflexivity.
  - unfold makeBuilder. eexists. split; [reflexivity |].
    now rewrite chainRoot_generateCallableChain.
Qed.

(** ** C3: what a call leaves in its inputs *)

(** C3, amended.  After a call of the chain builder the input array holds
    its elements in reverse order.  After a call of [render] the caller's
    options object holds all eight options: the value that the caller
    supplied, or the default for a property that the caller left out; so the
    object is as it was before the call exactly when the caller had supplied
    every property. *)
Theorem inputs_after_the_call (result : TransformResult.t)
    (outputSourceFile entrySourceFile : SourceFile)
    (options : PartialRenderOptions.t) (context : Context.t)
    (calls : list CallExpr) (base : Node) :
  snd (generateCallableChain calls base) = rev calls
  /\ snd (render' result outputSourceFile entrySourceFile options context)
     = {| PartialRenderOptions.lib :=
            Some (resolve (PartialRenderOptions.lib options) "yargs");
          PartialRenderOptions.functionName :=
            Some (resolve (PartialRenderOptions.functionName options) "cli");
          PartialRenderOptions.strict :=
            Some (resolve (PartialRenderOptions.strict options) true);
          PartialRenderOptions.help :=
            Some (resolve (PartialRenderOptions.help options) true);
          PartialRenderOptions.helpAlias :=
            Some (resolve (PartialRenderOptions.helpAlias options) true);
          PartialRenderOptions.version :=
            Some (resolve (PartialRenderOptions.version options) true);
          PartialRenderOptions.asyncFunction :=
            Some (resolve (PartialRenderOptions.asyncFunction options) false);
          PartialRenderOptions.runnable :=
            Some (resolve (PartialRenderOptions.runnable options) false) |}
  /\ (snd (render' result outputSourceFile entrySourceFile options context)
      = options
      <-> PartialRenderOptions.complete options = true).
Proof.
  split; [reflexivity |]. split; [reflexivity |].
  change (snd (render' result outputSourceFile entrySourceFile options context))
    with (PartialRenderOptions.of_full
            (fst (defaults options DEFAULT_RENDER_OPTIONS))).
  destruct options as [lib functionName strict help helpAlias version
                         asyncFunction runnable].
  unfold PartialRenderOptions.complete, PartialRenderOptions.of_full, defaults.
  cbn [fst PartialRenderOptions.lib PartialRenderOptions.functionName
       PartialRenderOptions.strict PartialRenderOptions.help
       PartialRenderOptions.helpAlias PartialRenderOptions.version
       PartialRenderOptions.asyncFunction PartialRenderOptions.runnable
       RenderOptions.lib RenderOptions.functionName RenderOptions.strict
       RenderOptions.help RenderOptions.helpAlias RenderOptions.version
       RenderOptions.asyncFunction RenderOptions.runnable].
  split.
  - intros H. injection H as <- <- <- <- <- <- <- <-. reflexivity.
  - intros H.
    destruct lib; [| discriminate H].
    destruct functionName; [| discriminate H].
    destruct strict; [| discriminate H].
    destruct help; [| discriminate H].
    destruct helpAlias; [| discriminate H].
    destruct version; [| discriminate H].
    destruct asyncFunction; [| discriminate H].
    destruct runnable; [| discriminate H].
    reflexivity.
Qed.

(** ** The invocation of the wrapper *)

(** Without [runnable] and without [stdin] no invocation is emitted: the
    wrapper declaration is the last node. *)
Lemma render_no_invocation (result : TransformResult.t)
    (outputSourceFile entrySourceFile : SourceFile)
    (options : PartialRenderOptions.t) (args : option (list string)) :
  let opts := fst (defaults options DEFAULT_RENDER_OPTIONS) in
  let context := {| Context.stdin := false; Context.args := args |} in
  RenderOptions.runnable opts = false ->
  fst (render' result outputSourceFile entrySourceFile options context)
  = Normal
      (makeLibImportDeclarationNode require_resolve "yargs" "yargs" context
       :: makeRefImportDeclarationNode getRelativePathAsModuleSpecifierTo
            getFunctionDeclarationDefaultName outputSourceFile result
       ++ [ makeWrapperFunctionDeclaration
              [ ExpressionStatement (renderChain result opts) ] opts ]).
Proof.
  intros opts context Hrunnable.
  rewrite render_makeWrapper, makeWrapper_nodes.
  fold opts. cbn [MakeWrapperOptions.options MakeWrapperOptions.context].
  now rewrite Hrunnable.
Qed.

(** With [runnable] or [stdin], and arguments in the context, no node
    sequence is returned. *)
Lemma makeWrapper_args_throws (body : list Node) (options : MakeWrapperOptions.t)
    (args : list string) :
  RenderOptions.runnable (MakeWrapperOptions.options options)
  || Context.stdin (MakeWrapperOptions.context options) = true ->
  Context.args (MakeWrapperOptions.context options) = Some args ->
  makeWrapper' body options = Throw (TypeError "object is not iterable").
Proof.
  intros Hcall Hargs.
  now rewrite makeWrapper_nodes, Hcall, Hargs.
Qed.

(** In [stdin] mode, without arguments in the context: the import, the
    statements of the entry file as they are and in their order, the
    wrapper declaration, the invocation without arguments. *)
Lemma makeWrapper_stdin_no_args (body : list Node)
    (options : MakeWrapperOptions.t) :
  Context.stdin (MakeWrapperOptions.context options) = true ->
  Context.args (MakeWrapperOptions.context options) = None ->
  makeWrapper' body options
  = Normal
      (makeLibImportDeclarationNode require_resolve "yargs" "yargs"
         (MakeWrapperOptions.context options)
       :: map compilerNode
            (getStatements (MakeWrapperOptions.entrySourceFile options))
       ++ [ makeWrapperFunctionDeclaration body
              (MakeWrapperOptions.options options);
            CallExpression
              (Identifier (RenderOptions.functionName
                             (MakeWrapperOptions.options options)))
              None [] ]).
Proof.
  intros Hstdin Hargs.
  rewrite makeWrapper_nodes, Hstdin, Hargs, orb_true_r.
  unfold wrapperNodes. rewrite Hstdin.
  simpl. now rewrite <- app_assoc.
Qed.

End Orchestrator.

(** C3, the claim refuted: the chain builder leaves [parse(args)] before
    [strict()] in the array it was given, and [render] leaves the eight
    defaults in the empty options object it was given. *)
Lemma inputs_are_modified :
  snd (generateCallableChain [strictCall; parseCall] (Identifier "yargs"))
  = [parseCall; strictCall]
  /\ snd (generateCallableChain [strictCall; parseCall] (Identifier "yargs"))
     <> [strictCall; parseCall]
  /\ snd (sampleRender sampleResult sampleOutput sampleEntry
            PartialRenderOptions.empty
            {| Context.stdin := false; Context.args := None |})
     = PartialRenderOptions.of_full DEFAULT_RENDER_OPTIONS
  /\ snd (sampleRender sampleResult sampleOutput sampleEntry
            PartialRenderOptions.empty
            {| Context.stdin := false; Context.args := None |})
     <> PartialRenderOptions.empty.
Proof. repeat split; discriminate. Qed.

(** C2.  With [runnable] set and the arguments [a] and [b] in the context,
    [render] returns no node sequence: building the invocation raises a
    [TypeError], for the array literal node is spread where it should be
    the one element of the argument list. *)
Theorem render_runnable_with_args :
  fst (sampleRender sampleResult sampleOutput sampleEntry
         {| PartialRenderOptions.lib := None;
            PartialRenderOptions.functionName := None;
            PartialRenderOptions.strict := None;
            PartialRenderOptions.help := None;
            PartialRenderOptions.helpAlias := None;
            PartialRenderOptions.version := None;
            PartialRenderOptions.asyncFunction := None;
            PartialRenderOptions.runnable := Some true |}
         {| Context.stdin := false; Context.args := Some ["a"; "b"] |})
  = Throw (TypeError "object is not iterable").
Proof. reflexivity. Qed.

(** C9.  In [stdin] mode with the argument [a] in the context the wrapper
    assembler returns no node sequence, for the same reason. *)
Theorem makeWrapper_stdin_with_args :
  makeWrapper sampleResolve sampleRelativePath sampleDefaultName []
    {| MakeWrapperOptions.outputSourceFile := sampleOutput;
       MakeWrapperOptions.entrySourceFile := sampleEntry;
       MakeWrapperOptions.result := sampleResult;
       MakeWrapperOptions.context :=
         {| Context.stdin := true; Context.args := Some ["a"] |};
       MakeWrapperOptions.options := DEFAULT_RENDER_OPTIONS |}
  = Throw (TypeError "object is not iterable").
Proof. reflexivity. Qed.

(** * Further properties of the generator *)

(** ** The chain builder *)

Lemma wellFormedChain_fluentChain (calls : list CallExpr) (base : Node) :
  Forall (fun call => isStandaloneCall call = true) calls ->
  wellFormedChain (fluentChain calls base) = wellFormedChain base.
Proof.
  intros Hcalls. revert base.
  induction Hcalls as [| call calls Hcall _ IH]; intros base; [reflexivity |].
  change (fluentChain (call :: calls) base)
    with (fluentChain calls (attach base call)).
  rewrite IH. unfold isStandaloneCall in Hcall. simpl. now rewrite Hcall.
Qed.

(** X1.  The tree that the chain builder returns: the base itself for no
    call; otherwise one call expression that carries the type arguments and
    the arguments of the last call, and whose callee is a property access on
    the base with, in its name slot, the earlier calls as they are, each the
    receiver of a property access, down to the callee of the last call. *)
Theorem generateCallableChain_tree (calls : list CallExpr) (base : Node) :
  fst (generateCallableChain calls base)
  = match calls with
    | [] => base
    | first :: rest =>
        CallExpression
          (PropertyAccessExpression base (nestedName first rest))
          (typeArguments (last rest first))
          (arguments (last rest first))
    end.
Proof.
  destruct calls as [| first rest]; [reflexivity |].
  apply generateCallableChain_shape.
Qed.

(** X2.  Read left to right, the tree of the chain builder shows the
    segments of the base and then those of the calls, in their order: the
    same reading as the fluent chain over the same calls. *)
Theorem generateCallableChain_reads_as_fluentChain (calls : list CallExpr)
    (base : Node) :
  segments (fst (generateCallableChain calls base))
  = segments base ++ flat_map (fun call : CallExpr => segments call) calls
  /\ segments (fst (generateCallableChain calls base))
     = segments (fluentChain calls base).
Proof.
  split.
  - apply segments_generateCallableChain.
  - now rewrite segments_generateCallableChain, segments_fluentChain.
Qed.

(** X3.  For two standalone calls or more the tree of the chain builder is
    not the fluent chain over them, and where the fluent chain is as well
    formed as its base, the tree is not well formed. *)
Theorem generateCallableChain_two_or_more (first next : CallExpr)
    (rest : list CallExpr) (base : Node) :
  Forall (fun call => isStandaloneCall call = true) (first :: next :: rest) ->
  fst (generateCallableChain (first :: next :: rest) base)
  <> fluentChain (first :: next :: rest) base
  /\ wellFormedChain (fluentChain (first :: next :: rest) base)
     = wellFormedChain base
  /\ wellFormedChain (fst (generateCallableChain (first :: next :: rest) base))
     = false.
Proof.
  intros Hcalls. split; [| split].
  - now apply generateCallableChain_not_fluent.
  - now apply wellFormedChain_fluentChain.
  - apply generateCallableChain_malformed.
Qed.

(** X3, at [strict()], [parse(args)] and [strict()] on [yargs]. *)
Lemma generateCallableChain_two_or_more_witness :
  Forall (fun call => isStandaloneCall call = true)
    [strictCall; parseCall; strictCall]
  /\ (fst (generateCallableChain [strictCall; parseCall; strictCall]
            (Identifier "yargs"))
      <> fluentChain [strictCall; parseCall; strictCall] (Identifier "yargs")
      /\ wellFormedChain
           (fluentChain [strictCall; parseCall; strictCall] (Identifier "yargs"))
         = wellFormedChain (Identifier "yargs")
      /\ wellFormedChain
           (fst (generateCallableChain [strictCall; parseCall; strictCall]
                   (Identifier "yargs")))
         = false).
Proof.
  assert (H : Forall (fun call => isStandaloneCall call = true)
                [strictCall; parseCall; strictCall])
    by (repeat constructor).
  split; [exact H |].
  exact (generateCallableChain_two_or_more strictCall parseCall [strictCall]
           (Identifier "yargs") H).
Defined.

(** X4.  A second call of the chain builder on the same array, which the
    first left reversed, chains the calls in reverse order, and leaves the
    array as it was before the first. *)
Theorem generateCallableChain_on_the_same_array (calls : list CallExpr)
    (base base' : Node) :
  let after := snd (generateCallableChain calls base) in
  segments (fst (generateCallableChain after base'))
  = segments base' ++ flat_map (fun call : CallExpr => segments call) (rev calls)
  /\ snd (generateCallableChain after base') = calls.
Proof.
  intros after. subst after.
  rewrite generateCallableChain_after. split.
  - apply segments_generateCallableChain.
  - rewrite generateCallableChain_after. apply rev_involutive.
Qed.

(** ** The callbacks of the command *)

Lemma makeBuilder_calls (result : TransformResult.t) :
  makeBuilder result
  = ArrowFunction [ ParameterDeclaration (Identifier "yargs") None None ]
      (Token EqualsGreaterThanToken)
      (Block
         [ ReturnStatement
             (fst (generateCallableChain
                     (map snd (TransformResult.positionals result)
                      ++ map snd (TransformResult.options result))
                     (Identifier "yargs"))) ]
         true).
Proof.
  unfold makeBuilder.
  rewrite !(fold_left_push_pair (fun (_ : string) (call : CallExpr) => call)).
  reflexivity.
Qed.

(** X5.  The builder callback returns a chain that reads, left to right,
    [yargs], the definition calls of the positionals in declared order, and
    then those of the options in declared order.  Without positionals and
    options it returns the bare identifier [yargs]. *)
Theorem makeBuilder_registers_in_order :
  (forall result : TransformResult.t,
     exists chain,
       makeBuilder result
       = ArrowFunction [ ParameterDeclaration (Identifier "yargs") None None ]
           (Token EqualsGreaterThanToken)
           (Block [ ReturnStatement chain ] true)
       /\ segments chain
          = Identifier "yargs"
            :: flat_map (fun call : CallExpr => segments call)
                 (map snd (TransformResult.positionals result))
            ++ flat_map (fun call : CallExpr => segments call)
                 (map snd (TransformResult.options result)))
  /\ (forall name description ref,
        makeBuilder
          {| TransformResult.name := name;
             TransformResult.description := description;
             TransformResult.positionals := [];
             TransformResult.options := [];
             TransformResult.ref := ref |}
        = ArrowFunction [ ParameterDeclaration (Identifier "yargs") None None ]
            (Token EqualsGreaterThanToken)
            (Block [ ReturnStatement (Identifier "yargs") ] true)).
Proof.
  split; [| reflexivity].
  intros result. rewrite makeBuilder_calls.
  eexists. split; [reflexivity |].
  rewrite segments_generateCallableChain, flat_map_app. reflexivity.
Qed.

(** X6.  With two definitions or more, positionals and options together,
    the chain that the builder callback returns is not well formed. *)
Theorem makeBuilder_chain_malformed (result : TransformResult.t) :
  2 <= List.length (TransformResult.positionals result)
       + List.length (TransformResult.options result) ->
  exists chain,
    makeBuilder result
    = ArrowFunction [ ParameterDeclaration (Identifier "yargs") None None ]
        (Token EqualsGreaterThanToken)
        (Block [ ReturnStatement chain ] true)
    /\ wellFormedChain chain = false.
Proof.
  intros Hlen. rewrite makeBuilder_calls.
  eexists. split; [reflexivity |].
  assert (Hcalls : 2 <= List.length
                         (map snd (TransformResult.positionals result)
                          ++ map snd (TransformResult.options result)))
    by (rewrite length_app, !length_map; exact Hlen).
  destruct (map snd (TransformResult.positionals result)
            ++ map snd (TransformResult.options result))
    as [| first [| next rest]]; simpl in Hcalls; try lia.
  apply generateCallableChain_malformed.
Qed.

(** X6, at the sample function: two positionals and one option. *)
Lemma makeBuilder_chain_malformed_witness :
  2 <= List.length (TransformResult.positionals sampleResult)
       + List.length (TransformResult.options sampleResult)
  /\ exists chain,
       makeBuilder sampleResult
       = ArrowFunction [ ParameterDeclaration (Identifier "yargs") None None ]
           (Token EqualsGreaterThanToken)
           (Block [ ReturnStatement chain ] true)
       /\ wellFormedChain chain = false.
Proof.
  assert (H : 2 <= List.length (TransformResult.positionals sampleResult)
                   + List.length (TransformResult.options sampleResult))
    by (simpl; lia).
  split; [exact H |].
  exact (makeBuilder_chain_malformed sampleResult H).
Defined.

Lemma forallb_removelast {A : Type} (p : A -> bool) (l : list A) :
  forallb p l = true -> forallb p (removelast l) = true.
Proof.
  induction l as [| x l IH]; [reflexivity |].
  destruct l as [| y l]; [reflexivity |].
  intros H. apply andb_prop in H. destruct H as [Hx Hl].
  change (removelast (x :: y :: l)) with (x :: removelast (y :: l)).
  cbn [forallb]. now rewrite Hx, IH.
Qed.

Lemma forallb_map_true {A B : Type} (p : B -> bool) (f : A -> B) (l : list A) :
  (forall x, p (f x) = true) -> forallb p (map f l) = true.
Proof.
  intros H. induction l as [| x l IH]; [reflexivity |].
  cbn [map forallb]. now rewrite H, IH.
Qed.

(** X7.  In the handler callback every argument of the dispatch call is
    bound by the destructuring: the arguments are, in order, the names that
    the binding pattern binds after [_] and [$0].  A rest element, if there
    is one, is the last element of the pattern. *)
Theorem makeHandler_arguments_are_bound (result : TransformResult.t) :
  exists elements arguments,
    makeHandler result
    = ArrowFunction [ ParameterDeclaration (Identifier "args") None None ]
        (Token EqualsGreaterThanToken)
        (Block
           [ VariableStatement
               (VariableDeclarationList
                  [ VariableDeclaration (ObjectBindingPattern elements)
                      (Identifier "args") ]
                  Const);
             ExpressionStatement
               (CallExpression (Identifier (TransformResult.name result)) None
                  arguments) ]
           false)
    /\ map bindingName (skipn 2 elements) = arguments
    /\ map bindingName (firstn 2 elements) = [ Identifier "_"; Identifier "$0" ]
    /\ forallb (fun element => negb (isRestElement element)) (removelast elements)
       = true.
Proof.
  set (positionals := TransformResult.positionals result).
  set (bindings :=
         map (fun p : string * CallExpr => BindingElement None (Identifier (fst p)))
           positionals).
  set (identifiers :=
         map (fun p : string * CallExpr => Identifier (fst p)) positionals).
  assert (Hb : makePositionalBindingNodes positionals = bindings).
  { apply map_ext. now intros [name call]. }
  assert (Hi : makePositionalIdentifierNodes positionals = identifiers).
  { apply map_ext. now intros [name call]. }
  assert (Hplain : forallb (fun element => negb (isRestElement element))
                     (BindingElement None (Identifier "_")
                      :: BindingElement None (Identifier "$0") :: bindings)
                   = true).
  { cbn [forallb isRestElement negb andb]. now apply forallb_map_true. }
  assert (Hnames : map bindingName bindings = identifiers).
  { unfold bindings, identifiers. rewrite map_map. reflexivity. }
  unfold makeHandler, makeArrowFunctionNode, makeDeconstructNode,
    makeCommandApplyNode, truthy.
  fold positionals. rewrite Hb, Hi.
  destruct (TransformResult.options result) as [| option options].
  - exists (BindingElement None (Identifier "_")
            :: BindingElement None (Identifier "$0") :: bindings),
           identifiers.
    cbn [List.length Nat.eqb negb]. rewrite !app_nil_r.
    repeat split; [exact Hnames | now apply forallb_removelast].
  - exists ((BindingElement None (Identifier "_")
             :: BindingElement None (Identifier "$0") :: bindings)
            ++ [ BindingElement (Some (Token DotDotDotToken))
                   (Identifier "options") ]),
           (identifiers ++ [ Identifier "options" ]).
    repeat split.
    + cbn [app skipn]. now rewrite map_app, Hnames.
    + rewrite removelast_last. exact Hplain.
Qed.

(** ** The wrapper and the orchestrator *)

(** X8.  Building the invocation of the wrapper either returns the call of
    [name] without arguments, when the context has no arguments, or raises,
    when it has some: an invocation that passes arguments is never
    returned. *)
Theorem makeCliCallNode_never_passes_arguments (name : string)
    (args : option (list string)) :
  match makeCliCallNode name args with
  | Normal node => args = None /\ node = CallExpression (Identifier name) None []
  | Throw _ => args <> None
  end.
Proof.
  destruct args as [args |]; simpl.
  - discriminate.
  - now split.
Qed.

(** X9.  The wrapper declaration is exported as the default, and it is
    [async] exactly when its return type is [Promise<void>], and not [async]
    exactly when its return type is [void]; its block holds the body
    statements as they are. *)
Theorem makeWrapperFunctionDeclaration_async_returns_promise (body : list Node)
    (options : RenderOptions.t) :
  exists modifiers parameter type,
    makeWrapperFunctionDeclaration body options
    = FunctionDeclaration
        (Modifier ExportKeyword :: Modifier DefaultKeyword :: modifiers)
        (Identifier (RenderOptions.functionName options))
        [ parameter ] type (Block body true)
    /\ (In (Modifier AsyncKeyword) modifiers
        <-> type = TypeReferenceNode (Identifier "Promise")
                     [ KeywordTypeNode VoidKeyword ])
    /\ (modifiers = [] <-> type = KeywordTypeNode VoidKeyword)
    /\ (In (Modifier AsyncKeyword) modifiers
        <-> RenderOptions.asyncFunction options = true).
Proof.
  unfold makeWrapperFunctionDeclaration.
  destruct (RenderOptions.asyncFunction options);
    do 3 eexists; (split; [reflexivity |]).
  - repeat split; intros H; try reflexivity; try discriminate H; now left.
  - repeat split; intros H; try reflexivity; try discriminate H; destruct H.
Qed.

Section Generated.

Variable require_resolve : string -> string.
Variable getRelativePathAsModuleSpecifierTo : SourceFile -> SourceFile -> string.
Variable getFunctionDeclarationDefaultName : MorphNode -> string.

Local Abbreviation makeWrapper' :=
  (makeWrapper require_resolve getRelativePathAsModuleSpecifierTo
     getFunctionDeclarationDefaultName).
Local Abbreviation render' :=
  (render require_resolve getRelativePathAsModuleSpecifierTo
     getFunctionDeclarationDefaultName).
Local Abbreviation makeRefImportDeclarationNode' :=
  (makeRefImportDeclarationNode getRelativePathAsModuleSpecifierTo
     getFunctionDeclarationDefaultName).

(** X10.  The reference imports are one import declaration per entry of
    [result.ref], in the order of the entries: from the path of the entry's
    file relative to the output file, with the named exports in their order
    and, as the default import, the name of the first default export only;
    any further default export of the file is left out, and an entry
    without exports still gets its import. *)
Theorem makeRefImportDeclarationNode_per_entry (outputSourceFile : SourceFile)
    (result : TransformResult.t) :
  makeRefImportDeclarationNode' outputSourceFile result
  = map (fun item : SourceFile * RefEntry =>
           refImport
             (getRelativePathAsModuleSpecifierTo outputSourceFile (fst item))
             (match default (snd item) with
              | [] => None
              | first :: _ =>
                  Some (getFunctionDeclarationDefaultName (info_node first))
              end)
             (map info_name (named (snd item))))
      (TransformResult.ref result)
  /\ List.length (makeRefImportDeclarationNode' outputSourceFile result)
     = List.length (TransformResult.ref result).
Proof.
  assert (Heq : makeRefImportDeclarationNode' outputSourceFile result
                = map (fun item : SourceFile * RefEntry =>
                         refImport
                           (getRelativePathAsModuleSpecifierTo outputSourceFile
                              (fst item))
                           (match default (snd item) with
                            | [] => None
                            | first :: _ =>
                                Some (getFunctionDeclarationDefaultName
                                        (info_node first))
                            end)
                           (map info_name (named (snd item))))
                    (TransformResult.ref result)).
  { unfold makeRefImportDeclarationNode.
    rewrite (fold_left_push_pair
               (fun (sourceFile : SourceFile) (entry : RefEntry) =>
                  createImportDeclaration undefined undefined
                    (createImportClause
                       match default entry with
                       | [] => None
                       | def0 :: _ =>
                           Some (createIdentifier
                                   (getFunctionDeclarationDefaultName
                                      (info_node def0)))
                       end
                       (createNamedImports
                          (map (fun info =>
                                  createImportSpecifier undefined
                                    (createIdentifier (info_name info)))
                             (named entry))))
                    (createStringLiteral
                       (getRelativePathAsModuleSpecifierTo outputSourceFile
                          sourceFile)))).
    cbn [app]. apply map_ext. intros [sourceFile entry].
    unfold refImport. cbn [fst snd]. rewrite map_map.
    now destruct (default entry). }
  split; [exact Heq |].
  now rewrite Heq, length_map.
Qed.

(** X11.  With arguments in the context and the wrapper to be invoked, that
    is with [runnable] or in [stdin] mode, [render] raises and returns no
    node sequence. *)
Theorem render_raises_with_args (result : TransformResult.t)
    (outputSourceFile entrySourceFile : SourceFile)
    (options : PartialRenderOptions.t) (context : Context.t)
    (args : list string) :
  Context.args context = Some args ->
  RenderOptions.runnable (fst (defaults options DEFAULT_RENDER_OPTIONS))
  || Context.stdin context = true ->
  exists error,
    fst (render' result outputSourceFile entrySourceFile options context)
    = Throw error.
Proof.
  intros Hargs Hcall.
  rewrite render_makeWrapper, makeWrapper_nodes.
  cbn [MakeWrapperOptions.options MakeWrapperOptions.context].
  rewrite Hcall, Hargs. now eexists.
Qed.

(** X12.  What [render] leaves in the options object is complete: a second
    call with that object returns what the first returned and leaves the
    object as it is, and the defaults no longer bear on it. *)
Theorem render_again_with_the_same_options (result : TransformResult.t)
    (outputSourceFile entrySourceFile : SourceFile)
    (options : PartialRenderOptions.t) (context : Context.t)
    (otherDefaults : RenderOptions.t) :
  let after :=
    snd (render' result outputSourceFile entrySourceFile options context) in
  fst (render' result outputSourceFile entrySourceFile after context)
  = fst (render' result outputSourceFile entrySourceFile options context)
  /\ snd (render' result outputSourceFile entrySourceFile after context) = after
  /\ fst (defaults after otherDefaults)
     = fst (defaults options DEFAULT_RENDER_OPTIONS).
Proof.
  intros after. subst after.
  assert (Hfull : forall o d, fst (defaults (PartialRenderOptions.of_full o) d) = o).
  { intros [] d. reflexivity. }
  assert (Hafter : snd (render' result outputSourceFile entrySourceFile options
                          context)
                   = PartialRenderOptions.of_full
                       (fst (defaults options DEFAULT_RENDER_OPTIONS)))
    by reflexivity.
  rewrite Hafter. split; [| split].
  - rewrite !render_makeWrapper. now rewrite Hfull.
  - change (snd (render' result outputSourceFile entrySourceFile
                   (PartialRenderOptions.of_full
                      (fst (defaults options DEFAULT_RENDER_OPTIONS)))
                   context))
      with (PartialRenderOptions.of_full
              (fst (defaults
                      (PartialRenderOptions.of_full
                         (fst (defaults options DEFAULT_RENDER_OPTIONS)))
                      DEFAULT_RENDER_OPTIONS))).
    now rewrite Hfull.
  - apply Hfull.
Qed.

End Generated.

(** X11, at the sample function in [stdin] mode with the argument [a]. *)
Lemma render_raises_with_args_witness :
  Context.args {| Context.stdin := true; Context.args := Some ["a"] |}
  = Some ["a"]
  /\ RenderOptions.runnable
       (fst (defaults PartialRenderOptions.empty DEFAULT_RENDER_OPTIONS))
     || Context.stdin {| Context.stdin := true; Context.args := Some ["a"] |}
     = true
  /\ exists error,
       fst (sampleRender sampleResult sampleOutput sampleEntry
              PartialRenderOptions.empty
              {| Context.stdin := true; Context.args := Some ["a"] |})
       = Throw error.
Proof.
  split; [reflexivity |]. split; [reflexivity |].
  exact (render_raises_with_args sampleResolve sampleRelativePath
           sampleDefaultName sampleResult sampleOutput sampleEntry
           PartialRenderOptions.empty
           {| Context.stdin := true; Context.args := Some ["a"] |}
           ["a"] eq_refl eq_refl).
Defined.

(** X13.  Whatever the flags, the top-level chain of [render] has at least
    the two links [command(...)] and [parse(args)], and so is never well
    formed: the name slot of its outermost property access holds a property
    access. *)
Theorem renderChain_never_well_formed (result : TransformResult.t)
    (opts : RenderOptions.t) :
  2 <= List.length (renderCalls result opts) <= 6
  /\ wellFormedChain (renderChain result opts) = false.
Proof.
  unfold renderChain. rewrite renderCalls_links.
  destruct (RenderOptions.strict opts), (RenderOptions.help opts),
    (RenderOptions.helpAlias opts), (RenderOptions.version opts);
    (split; [cbn [app List.length]; lia |]);
    cbn [app]; apply generateCallableChain_malformed.
Qed.

(** X14.  In [stdin] mode the node sequence depends neither on the output
    file nor on the references of the result, nor on how relative paths and
    default names are computed: no reference import is emitted. *)
Theorem render_stdin_ignores_references
    (require_resolve : string -> string)
    (relativePath relativePath' : SourceFile -> SourceFile -> string)
    (defaultName defaultName' : MorphNode -> string)
    (name : string) (description : Node)
    (positionals options : list (string * CallExpr))
    (ref ref' : list (SourceFile * RefEntry))
    (outputSourceFile outputSourceFile' entrySourceFile : SourceFile)
    (renderOptions : PartialRenderOptions.t) (args : option (list string)) :
  fst (render require_resolve relativePath defaultName
         {| TransformResult.name := name;
            TransformResult.description := description;
            TransformResult.positionals := positionals;
            TransformResult.options := options;
            TransformResult.ref := ref |}
         outputSourceFile entrySourceFile renderOptions
         {| Context.stdin := true; Context.args := args |})
  = fst (render require_resolve relativePath' defaultName'
           {| TransformResult.name := name;
              TransformResult.description := description;
              TransformResult.positionals := positionals;
              TransformResult.options := options;
              TransformResult.ref := ref' |}
           outputSourceFile' entrySourceFile renderOptions
           {| Context.stdin := true; Context.args := args |}).
Proof.
  rewrite !render_makeWrapper, !makeWrapper_nodes.
  reflexivity.
Qed.

(** X15.  Outside [stdin] mode the node sequence depends neither on the
    entry file nor on how module paths are resolved: no statement of the
    entry file is emitted, and the library is imported as [yargs]. *)
Theorem render_references_ignore_entry
    (require_resolve require_resolve' : string -> string)
    (relativePath : SourceFile -> SourceFile -> string)
    (defaultName : MorphNode -> string)
    (result : TransformResult.t)
    (outputSourceFile entrySourceFile entrySourceFile' : SourceFile)
    (renderOptions : PartialRenderOptions.t) (args : option (list string)) :
  fst (render require_resolve relativePath defaultName result
         outputSourceFile entrySourceFile renderOptions
         {| Context.stdin := false; Context.args := args |})
  = fst (render require_resolve' relativePath defaultName result
           outputSourceFile entrySourceFile' renderOptions
           {| Context.stdin := false; Context.args := args |}).
Proof.
  rewrite !render_makeWrapper, !makeWrapper_nodes.
  reflexivity.
Qed.

(** X16.  A node sequence that [render] returns has the import, then one
    node per statement of the entry file in [stdin] mode and one per entry
    of [result.ref] otherwise, then the wrapper declaration, and one more
    node, the invocation, with [runnable] or in [stdin] mode. *)
Theorem render_node_count
    (require_resolve : string -> string)
    (relativePath : SourceFile -> SourceFile -> string)
    (defaultName : MorphNode -> string)
    (result : TransformResult.t)
    (outputSourceFile entrySourceFile : SourceFile)
    (options : PartialRenderOptions.t) (context : Context.t)
    (nodes : list Node) :
  fst (render require_resolve relativePath defaultName result
         outputSourceFile entrySourceFile options context)
  = Normal nodes ->
  List.length nodes
  = 2
    + (if Context.stdin context
       then List.length (getStatements entrySourceFile)
       else List.length (TransformResult.ref result))
    + (if RenderOptions.runnable (fst (defaults options DEFAULT_RENDER_OPTIONS))
          || Context.stdin context
       then 1 else 0).
Proof.
  set (opts := fst (defaults options DEFAULT_RENDER_OPTIONS)).
  rewrite render_makeWrapper, makeWrapper_nodes. fold opts.
  cbn [MakeWrapperOptions.options MakeWrapperOptions.context].
  assert (Hrefs : List.length
                    (makeRefImportDeclarationNode relativePath defaultName
                       outputSourceFile result)
                  = List.length (TransformResult.ref result)).
  { unfold makeRefImportDeclarationNode.
    rewrite (fold_left_push_pair
               (fun (sourceFile : SourceFile) (entry : RefEntry) =>
               createImportDeclaration undefined undefined
                 (createImportClause
                    match default entry with
                    | [] => None
                    | def0 :: _ =>
                        Some (createIdentifier
                                (defaultName (info_node def0)))
                    end
                    (createNamedImports
                       (map (fun info =>
                               createImportSpecifier undefined
                                 (createIdentifier (info_name info)))
                          (named entry))))
                 (createStringLiteral
                    (relativePath outputSourceFile sourceFile)))).
    cbn [app]. apply length_map. }
  assert (Hnodes : List.length
                     (wrapperNodes require_resolve relativePath defaultName
                        [ ExpressionStatement (renderChain result opts) ]
                        {| MakeWrapperOptions.outputSourceFile := outputSourceFile;
                           MakeWrapperOptions.entrySourceFile := entrySourceFile;
                           MakeWrapperOptions.result := result;
                           MakeWrapperOptions.context := context;
                           MakeWrapperOptions.options := opts |})
                   = 2 + (if Context.stdin context
                          then List.length (getStatements entrySourceFile)
                          else List.length (TransformResult.ref result))).
  { unfold wrapperNodes.
    cbn [MakeWrapperOptions.options MakeWrapperOptions.context
         MakeWrapperOptions.entrySourceFile MakeWrapperOptions.outputSourceFile
         MakeWrapperOptions.result List.length].
    rewrite length_app. cbn [List.length].
    destruct (Context.stdin context).
    - rewrite length_map. lia.
    - rewrite Hrefs. lia. }
  assert (Hnormal : forall a b : list Node, Normal a = Normal b -> a = b)
    by (intros a b H; now injection H).
  destruct (RenderOptions.runnable opts || Context.stdin context).
  - destruct (Context.args context) as [args |]; [discriminate |].
    intros Hreturn. apply Hnormal in Hreturn. subst nodes.
    rewrite length_app, Hnodes. cbn [List.length]. lia.
  - intros Hreturn. apply Hnormal in Hreturn. subst nodes.
    rewrite Hnodes. lia.
Qed.

(** X16, at the sample function in [stdin] mode: the import, the one
    statement of the entry file, the declaration and the invocation. *)
Lemma render_node_count_witness :
  exists nodes,
    fst (sampleRender sampleResult sampleOutput sampleEntry
           PartialRenderOptions.empty
           {| Context.stdin := true; Context.args := None |})
    = Normal nodes
    /\ List.length nodes = 4.
Proof.
  eexists. split; [reflexivity |].
  exact (render_node_count sampleResolve sampleRelativePath sampleDefaultName
           sampleResult sampleOutput sampleEntry PartialRenderOptions.empty
           {| Context.stdin := true; Context.args := None |} _ eq_refl).
Defined.

